(** * Built-in functions of the Stylus evaluator ([lib/visitor/evaluator/bifs.js])

    A shallow embedding of the twelve built-in colour functions exported by
    [bifs.js], and the properties of their arity dispatch, type assertions
    and results.

    Conventions of the embedding.
    - A JavaScript number is an exact rational ([Q]); [NaN] and the
      infinities are left out.  [bifs.js] only passes numbers along, writes
      the literal [1] and calls [Math.round].
    - A call [f(a1, ..., an)] is [f [a1; ...; an]]: the list is the
      [arguments] object, a formal parameter is the list's element at its
      position, and [undefined] when the list is too short.
    - [throw] is the [Throw] outcome of the [result] type. *)

From Stdlib Require Import List String Ascii Bool Arith ZArith QArith Qround Lia.
Import ListNotations.

Local Open Scope string_scope.

(** ** Numbers *)

Definition number : Type := Q.

(** [Math.round]: the nearest integer, a tie going up. *)
Definition Math_round (x : number) : number :=
  inject_Z (Qfloor (x + (1 # 2))).

(** [String.prototype.toLowerCase], on the ASCII letters a constructor name
    is made of. *)
Definition lower_ascii (c : ascii) : ascii :=
  let n := nat_of_ascii c in
  if (65 <=? n)%nat && (n <=? 90)%nat then ascii_of_nat (n + 32) else c.

Fixpoint toLowerCase (s : string) : string :=
  match s with
  | EmptyString => EmptyString
  | String.String c rest => String.String (lower_ascii c) (toLowerCase rest)
  end.

(** ** The node library, as [bifs.js] consumes it

    [require('../../nodes')] is not part of the embedded file; the node
    classes are given by the fields [bifs.js] constructs them from and reads
    back.  In the specification's words [Unit] is NumericValue, [Color] is
    RGBColor, [HSLA] is HSLColor and [String] is the TypeTag text node. *)

Module nodes.

(** The constructor functions, as values: what [instanceof] is tested
    against and what [node.constructor] yields. *)
Inductive class : Type :=
| Unit_class
| Color_class
| HSLA_class
| String_class
| Other_class (name : string).

(** Modelled from the spec: the nodes of the node library, whose
    constructors are not part of [bifs.js]: [new nodes.Unit(val, type)],
    [new nodes.Color(r, g, b, a)], [new nodes.HSLA(h, s, l, a)],
    [new nodes.String(val)], and a node of any other class.  A node is
    constructible from raw field values (section 6) and the colour types do
    not enforce the ranges of their channels (section 3), so a node holds the
    arguments it was constructed from.  [rgba_new] below takes the [Color]
    constructor as a parameter instead. *)
Inductive node : Type :=
| Unit (val : number) (type : option string)
| Color (r g b a : number)
| HSLA (h s l a : number)
| String (val : string)
| Other (name : string).

Definition constructor (n : node) : class :=
  match n with
  | Unit _ _ => Unit_class
  | Color _ _ _ _ => Color_class
  | HSLA _ _ _ _ => HSLA_class
  | String _ => String_class
  | Other name => Other_class name
  end.

(** [constructor.name] *)
Definition name (c : class) : string :=
  match c with
  | Unit_class => "Unit"
  | Color_class => "Color"
  | HSLA_class => "HSLA"
  | String_class => "String"
  | Other_class name => name
  end.

Definition class_eqb (c d : class) : bool :=
  match c, d with
  | Unit_class, Unit_class => true
  | Color_class, Color_class => true
  | HSLA_class, HSLA_class => true
  | String_class, String_class => true
  | Other_class x, Other_class y => String.eqb x y
  | _, _ => false
  end.

(** [n instanceof c]; none of the classes above extends another. *)
Definition instanceof (n : node) (c : class) : bool :=
  class_eqb (constructor n) c.

(** Modelled from the spec: the channel conversion behind the projections
    [color.hsl] and [hsla.rgba], which is code of the node library.  The
    specification gives no formula for it (section 3: hue in degrees,
    saturation and lightness in percent), so it is a parameter of the
    development. *)
Class Conversion : Type := {
  toHSL : number -> number -> number -> number * number * number;
  toRGB : number -> number -> number -> number * number * number
}.

(** The colour-like nodes: what [utils.assertColor] lets through. *)
Definition color_like (n : node) : bool :=
  instanceof n Color_class || instanceof n HSLA_class.

Section Projections.
Context {conv : Conversion}.

(** Modelled from the spec: the getter [hsl], the HSL projection: of a
    [Color] the channels converted and alpha unchanged, of an [HSLA] its own
    components (section 3). *)
Definition hsl_projection (n : node) : option node :=
  match n with
  | Color r g b a => let '(h, s, l) := toHSL r g b in Some (HSLA h s l a)
  | HSLA h s l a => Some (HSLA h s l a)
  | _ => None
  end.

(** Modelled from the spec: the getter [rgba], the RGB projection: of an
    [HSLA] the channels converted back and alpha unchanged, of a [Color]
    its own channels (sections 3 and 4.2). *)
Definition rgba_projection (n : node) : option node :=
  match n with
  | Color r g b a => Some (Color r g b a)
  | HSLA h s l a => let '(r, g, b) := toRGB h s l in Some (Color r g b a)
  | _ => None
  end.

End Projections.

End nodes.

Import nodes.

(** ** Values and outcomes *)

(** What a formal parameter can hold: a node, or [undefined] when the call
    supplied no argument at that position. *)
Inductive value : Type :=
| undefined
| Node (n : node).

(** The failures of a call.  [TypeMismatch] carries the classes that were
    acceptable and the class that was found ([None] for [undefined]).
    [UnsupportedArity] is the second failure the specification's taxonomy
    names (section 7).  [TypeError] is JavaScript's own, thrown when a
    property of [undefined] is read. *)
Inductive error : Type :=
| TypeMismatch (expected : list class) (actual : option class)
| UnsupportedArity
| TypeError.

Inductive result (A : Type) : Type :=
| Return (x : A)
| Throw (e : error).

Arguments Return {A} x.
Arguments Throw {A} e.

Definition bind {A B : Type} (m : result A) (k : A -> result B) : result B :=
  match m with
  | Return x => k x
  | Throw e => Throw e
  end.

Declare Scope js_scope.
Delimit Scope js_scope with js.
Notation "x <- m ;; k" := (bind m (fun x => k))
  (at level 61, m at next level, right associativity) : js_scope.
Notation "m ;; k" := (bind m (fun _ => k))
  (at level 61, right associativity) : js_scope.
Local Open Scope js_scope.

(** The formal parameter at position [i] of a call with these [arguments]. *)
Definition param (arguments : list value) (i : nat) : value :=
  nth i arguments undefined.

(** ** Property reads

    [x.p] throws a [TypeError] when [x] is [undefined].  On a node that has
    no property [p] JavaScript yields [undefined]; the reads below fail
    there as well: every read of [bifs.js] but the one of [type] comes
    after an assertion which excludes it ([only_type_throws_TypeError]). *)

Module get.

Definition constructor (x : value) : result class :=
  match x with
  | Node n => Return (nodes.constructor n)
  | undefined => Throw TypeError
  end.

Definition val (x : value) : result number :=
  match x with
  | Node (Unit v _) => Return v
  | _ => Throw TypeError
  end.

Definition r (x : value) : result number :=
  match x with
  | Node (Color r _ _ _) => Return r
  | _ => Throw TypeError
  end.

Definition g (x : value) : result number :=
  match x with
  | Node (Color _ g _ _) => Return g
  | _ => Throw TypeError
  end.

Definition b (x : value) : result number :=
  match x with
  | Node (Color _ _ b _) => Return b
  | _ => Throw TypeError
  end.

Definition a (x : value) : result number :=
  match x with
  | Node (Color _ _ _ a) => Return a
  | Node (HSLA _ _ _ a) => Return a
  | _ => Throw TypeError
  end.

Definition h (x : value) : result number :=
  match x with
  | Node (HSLA h _ _ _) => Return h
  | _ => Throw TypeError
  end.

Definition s (x : value) : result number :=
  match x with
  | Node (HSLA _ s _ _) => Return s
  | _ => Throw TypeError
  end.

Definition l (x : value) : result number :=
  match x with
  | Node (HSLA _ _ l _) => Return l
  | _ => Throw TypeError
  end.

Section Getters.
Context {conv : Conversion}.

(** [x.hsl] *)
Definition hsl (x : value) : result value :=
  match x with
  | Node n =>
      match hsl_projection n with
      | Some c => Return (Node c)
      | None => Throw TypeError
      end
  | undefined => Throw TypeError
  end.

(** [x.rgba] *)
Definition rgba (x : value) : result value :=
  match x with
  | Node n =>
      match rgba_projection n with
      | Some c => Return (Node c)
      | None => Throw TypeError
      end
  | undefined => Throw TypeError
  end.

End Getters.

End get.

(** ** The type assertion gate ([require('./utils')]) *)

Module utils.

(** Modelled from the spec: [utils.assertType(node, type)] (section 4.1)
    returns the value unchanged when its class is [type] and fails with a
    [TypeMismatch] carrying the expected and the actual class otherwise.
    Section 4.1 speaks of a value that has a class.  On [undefined] the gate
    fails as well, no value being an instance of [type]; that this failure
    is a [TypeMismatch] which found no class is the rendering of the
    embedding, and the section does not name it. *)
Definition assertType (x : value) (type : class) : result value :=
  match x with
  | Node n =>
      if instanceof n type then Return x
      else Throw (TypeMismatch [type] (Some (nodes.constructor n)))
  | undefined => Throw (TypeMismatch [type] None)
  end.

(** Modelled from the spec: [utils.assertColor(node)] (section 4.1) passes
    a [Color] or an [HSLA] and fails with a [TypeMismatch] otherwise.  On
    [undefined] it fails as [assertType] does, under the same rendering. *)
Definition assertColor (x : value) : result value :=
  match x with
  | Node n =>
      if color_like n then Return x
      else Throw (TypeMismatch [Color_class; HSLA_class]
                               (Some (nodes.constructor n)))
  | undefined => Throw (TypeMismatch [Color_class; HSLA_class] None)
  end.

End utils.

(** ** The built-in functions ([exports.*] of [bifs.js]) *)

Section Bifs.
Context {conv : Conversion}.

(** [exports.hsla = function(h,s,l,a)] *)
Definition hsla (arguments : list value) : result value :=
  let h := param arguments 0 in
  let s := param arguments 1 in
  let l := param arguments 2 in
  let a := param arguments 3 in
  match List.length arguments with
  | 1%nat =>
      utils.assertType h Color_class ;;
      get.hsl h
  | _ =>
      utils.assertType h Unit_class ;;
      utils.assertType s Unit_class ;;
      utils.assertType l Unit_class ;;
      utils.assertType a Unit_class ;;
      hv <- get.val h ;;
      sv <- get.val s ;;
      lv <- get.val l ;;
      av <- get.val a ;;
      Return (Node (HSLA hv sv lv av))
  end.

(** [exports.hsl = function(h,s,l)] *)
Definition hsl (arguments : list value) : result value :=
  let h := param arguments 0 in
  let s := param arguments 1 in
  let l := param arguments 2 in
  if (1 <? List.length arguments)%nat then
    hsla [h; s; l; Node (Unit 1%Q None)]
  else
    utils.assertType h Color_class ;;
    get.hsl h.

(** [exports.type = function(node)] *)
Definition type (arguments : list value) : result value :=
  let node := param arguments 0 in
  c <- get.constructor node ;;
  Return (Node (String (toLowerCase (name c)))).

(** [exports.hue = function(hsla)] *)
Definition hue (arguments : list value) : result value :=
  let hsla := param arguments 0 in
  utils.assertType hsla HSLA_class ;;
  h <- get.h hsla ;;
  Return (Node (Unit (Math_round h) (Some "deg"))).

(** [exports.saturation = function(hsla)] *)
Definition saturation (arguments : list value) : result value :=
  let hsla := param arguments 0 in
  utils.assertType hsla HSLA_class ;;
  s <- get.s hsla ;;
  Return (Node (Unit (Math_round s) (Some "%"))).

(** [exports.lightness = function(hsla)] *)
Definition lightness (arguments : list value) : result value :=
  let hsla := param arguments 0 in
  utils.assertType hsla HSLA_class ;;
  l <- get.l hsla ;;
  Return (Node (Unit (Math_round l) (Some "%"))).

(** [exports.alpha = function(color)] *)
Definition alpha (arguments : list value) : result value :=
  let color := param arguments 0 in
  utils.assertColor color ;;
  rgba <- get.rgba color ;;
  a <- get.a rgba ;;
  Return (Node (Unit a None)).

(** [exports.red = function(color)] *)
Definition red (arguments : list value) : result value :=
  let color := param arguments 0 in
  utils.assertColor color ;;
  rgba <- get.rgba color ;;
  r <- get.r rgba ;;
  Return (Node (Unit r None)).

(** [exports.green = function(color)] *)
Definition green (arguments : list value) : result value :=
  let color := param arguments 0 in
  utils.assertColor color ;;
  rgba <- get.rgba color ;;
  g <- get.g rgba ;;
  Return (Node (Unit g None)).

(** [exports.blue = function(color)] *)
Definition blue (arguments : list value) : result value :=
  let color := param arguments 0 in
  utils.assertColor color ;;
  rgba <- get.rgba color ;;
  b <- get.b rgba ;;
  Return (Node (Unit b None)).

(** [exports.rgba = function(r,g,b,a)] *)
Definition rgba (arguments : list value) : result value :=
  let r := param arguments 0 in
  let g := param arguments 1 in
  let b := param arguments 2 in
  let a := param arguments 3 in
  match List.length arguments with
  | 1%nat =>
      utils.assertColor r ;;
      color <- get.rgba r ;;
      cr <- get.r color ;;
      cg <- get.g color ;;
      cb <- get.b color ;;
      ca <- get.a color ;;
      Return (Node (Color cr cg cb ca))
  | 2%nat =>
      utils.assertColor r ;;
      color <- get.rgba r ;;
      utils.assertType g Unit_class ;;
      cr <- get.r color ;;
      cg <- get.g color ;;
      cb <- get.b color ;;
      gv <- get.val g ;;
      Return (Node (Color cr cg cb gv))
  | _ =>
      utils.assertType r Unit_class ;;
      utils.assertType g Unit_class ;;
      utils.assertType b Unit_class ;;
      utils.assertType a Unit_class ;;
      rv <- get.val r ;;
      gv <- get.val g ;;
      bv <- get.val b ;;
      av <- get.val a ;;
      Return (Node (Color rv gv bv av))
  end.

(** [exports.rgb = function(r,g,b)] *)
Definition rgb (arguments : list value) : result value :=
  let r := param arguments 0 in
  let g := param arguments 1 in
  let b := param arguments 2 in
  match List.length arguments with
  | 1%nat =>
      utils.assertColor r ;;
      color <- get.rgba r ;;
      cr <- get.r color ;;
      cg <- get.g color ;;
      cb <- get.b color ;;
      Return (Node (Color cr cg cb 1%Q))
  | _ =>
      rgba [r; g; b; Node (Unit 1%Q None)]
  end.

(** The table the evaluator looks a function name up in: the properties of
    the [exports] object, in the order [bifs.js] assigns them. *)
Definition exports : list (string * (list value -> result value)) :=
  [ ("hsla", hsla); ("hsl", hsl); ("type", type); ("hue", hue);
    ("saturation", saturation); ("lightness", lightness);
    ("alpha", alpha); ("red", red); ("green", green); ("blue", blue);
    ("rgba", rgba); ("rgb", rgb) ].

End Bifs.

(** ** The [Color] constructor as a parameter

    What [new nodes.Color(r, g, b, a)] stores is decided by the node
    library.  [rgba_new] is [exports.rgba] with that constructor taken as
    the parameter [new_Color]; [rgba] above is [rgba_new Color]
    ([rgba_new_Color]). *)

Section Constructor.
Context {conv : Conversion}.
Variable new_Color : number -> number -> number -> number -> node.

(** [exports.rgba = function(r,g,b,a)] *)
Definition rgba_new (arguments : list value) : result value :=
  let r := param arguments 0 in
  let g := param arguments 1 in
  let b := param arguments 2 in
  let a := param arguments 3 in
  match List.length arguments with
  | 1%nat =>
      utils.assertColor r ;;
      color <- get.rgba r ;;
      cr <- get.r color ;;
      cg <- get.g color ;;
      cb <- get.b color ;;
      ca <- get.a color ;;
      Return (Node (new_Color cr cg cb ca))
  | 2%nat =>
      utils.assertColor r ;;
      color <- get.rgba r ;;
      utils.assertType g Unit_class ;;
      cr <- get.r color ;;
      cg <- get.g color ;;
      cb <- get.b color ;;
      gv <- get.val g ;;
      Return (Node (new_Color cr cg cb gv))
  | _ =>
      utils.assertType r Unit_class ;;
      utils.assertType g Unit_class ;;
      utils.assertType b Unit_class ;;
      utils.assertType a Unit_class ;;
      rv <- get.val r ;;
      gv <- get.val g ;;
      bv <- get.val b ;;
      av <- get.val a ;;
      Return (Node (new_Color rv gv bv av))
  end.

End Constructor.

(** Modelled from the spec: a channel kept within the range section 3
    names for it, integral in 0-255: it is rounded and then clamped.  The
    three definitions below make the constructor that enforces the ranges,
    where [Color] alone stores what it is given. *)
Definition clamp (n : number) : number :=
  let n := Math_round n in
  if Qle_bool n 0 then 0%Q else if Qle_bool 255 n then 255%Q else n.

(** Modelled from the spec: an alpha kept within 0-1 (section 3). *)
Definition clampAlpha (n : number) : number :=
  if Qle_bool n 0 then 0%Q else if Qle_bool 1 n then 1%Q else n.

(** Modelled from the spec: [new nodes.Color(r, g, b, a)] when the
    constructor enforces the ranges of section 3. *)
Definition clamped_Color (r g b a : number) : node :=
  Color (clamp r) (clamp g) (clamp b) (clampAlpha a).

(** ** An instance of the conversion, for evaluation

    The theorems of this file hold for every [Conversion].  Closed examples
    need one to run on; the formulas of the CSS colour model stand in for
    the node library's code there. *)

(** [x < y], and the largest and the smallest of three rationals. *)
Definition Qltb (x y : Q) : bool := negb (Qle_bool y x).

Definition Qmax3 (x y z : Q) : Q :=
  let m := if Qle_bool x y then y else x in
  if Qle_bool m z then z else m.

Definition Qmin3 (x y z : Q) : Q :=
  let m := if Qle_bool x y then x else y in
  if Qle_bool m z then m else z.

(** Modelled from the spec: the conversion of channels in 0-255 to hue in
    0-360 degrees and saturation and lightness in 0-100 percent (section 3);
    the node library's own code is not under [src/], the CSS formulas are
    taken for it. *)
Definition css_toHSL (r g b : number) : number * number * number :=
  let r := (r / 255)%Q in
  let g := (g / 255)%Q in
  let b := (b / 255)%Q in
  let max := Qmax3 r g b in
  let min := Qmin3 r g b in
  let d := (max - min)%Q in
  let l := ((max + min) / 2)%Q in
  let h :=
    if Qeq_bool d 0 then 0%Q
    else if Qeq_bool max r then
      (60 * ((g - b) / d) + (if Qltb g b then 360 else 0))%Q
    else if Qeq_bool max g then (60 * ((b - r) / d) + 120)%Q
    else (60 * ((r - g) / d) + 240)%Q in
  let s :=
    if Qeq_bool d 0 then 0%Q
    else if Qle_bool l (1 # 2) then (d / (2 * l))%Q
    else (d / (2 - 2 * l))%Q in
  (Qred h, Qred (s * 100), Qred (l * 100)).

(** Modelled from the spec: one channel of the conversion back (section 3),
    by the CSS formulas; [h] is the hue as a fraction of the circle. *)
Definition css_channel (m1 m2 h : Q) : Q :=
  let h := if Qltb h 0 then (h + 1)%Q
           else if Qltb 1 h then (h - 1)%Q else h in
  if Qltb (h * 6) 1 then (m1 + (m2 - m1) * h * 6)%Q
  else if Qltb (h * 2) 1 then m2
  else if Qltb (h * 3) 2 then (m1 + (m2 - m1) * ((2 # 3) - h) * 6)%Q
  else m1.

(** Modelled from the spec: the conversion back to integral channels in
    0-255 (section 3), by the CSS formulas. *)
Definition css_toRGB (h s l : number) : number * number * number :=
  let h := (h / 360)%Q in
  let s := (s / 100)%Q in
  let l := (l / 100)%Q in
  let m2 := if Qle_bool l (1 # 2) then (l * (s + 1))%Q
            else (l + s - l * s)%Q in
  let m1 := (l * 2 - m2)%Q in
  (Math_round (css_channel m1 m2 (h + (1 # 3)) * 255),
   Math_round (css_channel m1 m2 h * 255),
   Math_round (css_channel m1 m2 (h - (1 # 3)) * 255)).

(** Modelled from the spec: the node library's conversion, both ways. *)
Definition css : Conversion :=
  {| toHSL := css_toHSL; toRGB := css_toRGB |}.

(** ** Observations on outcomes *)

Definition returns {A : Type} (o : result A) : bool :=
  match o with
  | Return _ => true
  | Throw _ => false
  end.

Definition throws_UnsupportedArity {A : Type} (o : result A) : bool :=
  match o with
  | Throw UnsupportedArity => true
  | _ => false
  end.

Definition throws_TypeError {A : Type} (o : result A) : bool :=
  match o with
  | Throw TypeError => true
  | _ => false
  end.

(** [x instanceof c], [false] for [undefined]. *)
Definition is_a (x : value) (c : class) : bool :=
  match x with
  | Node n => instanceof n c
  | undefined => false
  end.

(** [x] is a colour-like node. *)
Definition is_color (x : value) : bool :=
  match x with
  | Node n => color_like n
  | undefined => false
  end.

(** The outcome is a node, or an assertion that failed on a node of another
    class than it asked for. *)
Definition returns_or_found_mismatch {A : Type} (o : result A) : bool :=
  match o with
  | Return _ => true
  | Throw (TypeMismatch _ (Some _)) => true
  | Throw _ => false
  end.

(** The alpha of a returned colour. *)
Definition result_alpha (o : result value) : option number :=
  match o with
  | Return (Node (Color _ _ _ a)) => Some a
  | Return (Node (HSLA _ _ _ a)) => Some a
  | _ => None
  end.

(** The outcome is a node or a failed assertion of the gate. *)
Definition returns_or_mismatch {A : Type} (o : result A) : bool :=
  match o with
  | Return _ => true
  | Throw (TypeMismatch _ _) => true
  | Throw _ => false
  end.

(** The first of the four formal parameters of [rgba] and [hsla] that is no
    [Unit], in the order the [default] branch asserts them. *)
Definition leftmost_non_Unit (arguments : list value) : option value :=
  find (fun x => negb (is_a x Unit_class))
       [param arguments 0; param arguments 1;
        param arguments 2; param arguments 3].

(** * Properties *)

(** ** The numbers and the gate *)

Lemma Math_round_nearest (x : number) :
  exists z : Z,
    Math_round x = inject_Z z /\
    (x - (1 # 2) < inject_Z z)%Q /\ (inject_Z z <= x + (1 # 2))%Q.
Proof.
  exists (Qfloor (x + (1 # 2))). split; [reflexivity | split].
  - pose proof (Qlt_floor (x + (1 # 2))) as H.
    rewrite inject_Z_plus in H. simpl inject_Z in H at 2.
    apply (Qplus_lt_l _ _ 1).
    setoid_replace (x - (1 # 2) + 1)%Q with (x + (1 # 2))%Q by ring.
    exact H.
  - apply Qfloor_le.
Qed.

Lemma clampAlpha_in_range (a : number) :
  (0 <= a)%Q -> (a <= 1)%Q -> (clampAlpha a == a)%Q.
Proof.
  intros H0 H1. unfold clampAlpha.
  destruct (Qle_bool a 0) eqn:E0.
  - apply Qle_bool_iff in E0. apply Qle_antisym; assumption.
  - destruct (Qle_bool 1 a) eqn:E1; [|reflexivity].
    apply Qle_bool_iff in E1. apply Qle_antisym; assumption.
Qed.

Lemma color_like_inv (c : node) :
  color_like c = true ->
  (exists r g b a, c = Color r g b a) \/ (exists h s l a, c = HSLA h s l a).
Proof.
  destruct c; cbn; try discriminate; intros _.
  - left; eauto.
  - right; eauto.
Qed.

Lemma is_a_Unit_inv (x : value) :
  is_a x Unit_class = true -> exists v u, x = Node (Unit v u).
Proof.
  destruct x as [|[]]; cbn; try discriminate; eauto.
Qed.

Lemma assertType_pass (x : value) (c : class) :
  is_a x c = true -> utils.assertType x c = Return x.
Proof.
  destruct x as [|n]; cbn; [discriminate|]. intros ->. reflexivity.
Qed.

Lemma assertType_fail (x : value) (c : class) :
  is_a x c = false ->
  exists actual, utils.assertType x c = Throw (TypeMismatch [c] actual).
Proof.
  destruct x as [|n]; cbn.
  - eauto.
  - intros ->. eauto.
Qed.

Lemma assertColor_pass (x : value) :
  is_color x = true -> utils.assertColor x = Return x.
Proof.
  destruct x as [|n]; [discriminate|].
  change (is_color (Node n)) with (color_like n). intros H.
  unfold utils.assertColor. rewrite H. reflexivity.
Qed.


(** A formal parameter below [n] is not changed by cutting [arguments]
    after its first [n] elements. *)
Lemma param_firstn (arguments : list value) (n i : nat) :
  (i < n)%nat -> param (firstn n arguments) i = param arguments i.
Proof.
  unfold param. revert n i.
  induction arguments as [|x xs IH]; intros n i Hi.
  - rewrite firstn_nil. reflexivity.
  - destruct n as [|n]; [lia|]. destruct i as [|i]; cbn; [reflexivity|].
    apply IH. lia.
Qed.

Section Properties.
Context {conv : Conversion}.

Lemma rgba_projection_color_like (c : node) :
  color_like c = true ->
  exists r g b a, rgba_projection c = Some (Color r g b a).
Proof.
  intros H. destruct (color_like_inv c H) as [(r & g & b & a & ->)|(h & s & l & a & ->)]; cbn.
  - eauto.
  - destruct (toRGB h s l) as [[r g] b]. eauto.
Qed.

Lemma hsl_projection_color_like (c : node) :
  color_like c = true ->
  exists h s l a, hsl_projection c = Some (HSLA h s l a).
Proof.
  intros H. destruct (color_like_inv c H) as [(r & g & b & a & ->)|(h & s & l & a & ->)]; cbn.
  - destruct (toHSL r g b) as [[h s] l]. eauto.
  - eauto.
Qed.

(** ** Property reads are guarded

    The only read of [bifs.js] that can meet [undefined] or a node without
    the property is [node.constructor] in [type], which no assertion
    precedes. *)

Ltac guard_step :=
  cbn;
  first
    [ reflexivity
    | match goal with
      | |- context [utils.assertType ?x _] => is_var x; destruct x as [|[]]
      | |- context [utils.assertColor ?x] => is_var x; destruct x as [|[]]
      | |- context [get.constructor ?x] => is_var x; destruct x
      | |- context [toRGB ?h ?s ?l] => destruct (toRGB h s l) as [[? ?] ?]
      | |- context [toHSL ?r ?g ?b] => destruct (toHSL r g b) as [[? ?] ?]
      end ].

Ltac guarded :=
  repeat match goal with
         | |- context [param ?a ?i] => generalize (param a i); intro
         end;
  repeat guard_step.

Lemma hsla_TypeError (arguments : list value) :
  throws_TypeError (hsla arguments) = false.
Proof.
  unfold hsla. destruct (List.length arguments) as [|[|n]]; guarded.
Qed.

Lemma rgba_TypeError (arguments : list value) :
  throws_TypeError (rgba arguments) = false.
Proof.
  unfold rgba. destruct (List.length arguments) as [|[|[|n]]]; guarded.
Qed.

Lemma only_type_throws_TypeError (arguments : list value) :
  throws_TypeError (hsla arguments) = false /\
  throws_TypeError (hsl arguments) = false /\
  throws_TypeError (hue arguments) = false /\
  throws_TypeError (saturation arguments) = false /\
  throws_TypeError (lightness arguments) = false /\
  throws_TypeError (alpha arguments) = false /\
  throws_TypeError (red arguments) = false /\
  throws_TypeError (green arguments) = false /\
  throws_TypeError (blue arguments) = false /\
  throws_TypeError (rgba arguments) = false /\
  throws_TypeError (rgb arguments) = false /\
  throws_TypeError (type arguments)
    = match param arguments 0 with undefined => true | Node _ => false end.
Proof.
  repeat split; try apply hsla_TypeError; try apply rgba_TypeError.
  - unfold hsl. destruct (1 <? List.length arguments)%nat;
      [apply hsla_TypeError | guarded].
  - unfold hue. guarded.
  - unfold saturation. guarded.
  - unfold lightness. guarded.
  - unfold alpha. guarded.
  - unfold red. guarded.
  - unfold green. guarded.
  - unfold blue. guarded.
  - unfold rgb. destruct (List.length arguments) as [|[|n]];
      try apply rgba_TypeError; guarded.
  - unfold type. guarded.
Qed.

(** ** The constructors [hsla] and [hsl] *)

(** C1, as the code has it: on a [Color] (RGBColor) the one-argument calls
    [hsla(v)] and [hsl(v)] return [v]'s HSL projection; on an [HSLA]
    (HSLColor) both assert [nodes.Color] and fail with a [TypeMismatch] that
    expected [Color] and found [HSLA]. *)
Theorem hsla_hsl_one_argument :
  (forall r g b a,
      exists p,
        hsl_projection (Color r g b a) = Some p /\
        hsla [Node (Color r g b a)] = Return (Node p) /\
        hsl [Node (Color r g b a)] = Return (Node p)) /\
  (forall h s l a,
      hsla [Node (HSLA h s l a)]
        = Throw (TypeMismatch [Color_class] (Some HSLA_class)) /\
      hsl [Node (HSLA h s l a)]
        = Throw (TypeMismatch [Color_class] (Some HSLA_class))).
Proof.
  split.
  - intros r g b a. unfold hsla, hsl. cbn.
    destruct (toHSL r g b) as [[h s] l]. eexists. repeat split.
  - intros h s l a. split; reflexivity.
Qed.

(** C4, as the code has it: on a [Color] [c] the one-argument calls [hsl(c)]
    and [hsla(c)] return an [HSLA] whose alpha is [c]'s alpha, and so
    [hsl(rgba(r,g,b,a))] carries the magnitude of [a]. *)
Theorem hsl_hsla_keep_alpha :
  (forall r g b a,
      exists h s l,
        hsl [Node (Color r g b a)] = Return (Node (HSLA h s l a)) /\
        hsla [Node (Color r g b a)] = Return (Node (HSLA h s l a))) /\
  (forall rv ru gv gu bv bu av au,
      exists h s l,
        (c <- rgba [Node (Unit rv ru); Node (Unit gv gu);
                    Node (Unit bv bu); Node (Unit av au)] ;;
         hsl [c]) = Return (Node (HSLA h s l av))).
Proof.
  split.
  - intros r g b a. unfold hsla, hsl. cbn.
    destruct (toHSL r g b) as [[h s] l]. exists h, s, l. split; reflexivity.
  - intros rv ru gv gu bv bu av au. unfold hsl. cbn.
    destruct (toHSL rv gv bv) as [[h s] l]. exists h, s, l. reflexivity.
Qed.

(** ** Argument counts *)

Lemma assertType_fail_node (n : node) (c : class) :
  instanceof n c = false ->
  utils.assertType (Node n) c
    = Throw (TypeMismatch [c] (Some (constructor n))).
Proof.
  intros H. unfold utils.assertType. rewrite H. reflexivity.
Qed.

(** One step through a function body whose parameters are all nodes: the
    asserted node is split into its classes. *)
Ltac node_step :=
  cbn;
  first
    [ reflexivity
    | match goal with
      | |- context [instanceof ?n _] => is_var n; destruct n
      | |- context [color_like ?n] => is_var n; destruct n
      | |- context [nodes.constructor ?n] => is_var n; destruct n
      | |- context [match ?n with _ => _ end] => is_var n; destruct n
      | |- context [toRGB ?h ?s ?l] => destruct (toRGB h s l) as [[? ?] ?]
      | |- context [toHSL ?r ?g ?b] => destruct (toHSL r g b) as [[? ?] ?]
      end ].

(** C2, as the code has it: [bifs.js] checks no argument count.  The count
    selects a branch (the [default] one, or the only body) and the
    assertions on the formal parameters decide.  When four nodes or more are
    passed, every function of the table returns or fails at an assertion
    that found a node of another class; [rgba] with more than four [Unit]s
    returns the [Color] of the first four; with a first argument that is a
    node and no [Unit], [hsl], [rgb] and [hsla] with two arguments and
    [rgba] and [hsla] with three fail with a [TypeMismatch] that expected
    [Unit] and found that node's class; the one-parameter functions do not
    look at the count.  A call in which an asserted parameter is missing is
    not spoken of. *)
Theorem argument_count_selects_branch :
  (forall ns : list node,
      (4 <= List.length ns)%nat ->
      Forall (fun entry =>
                returns_or_found_mismatch (snd entry (map Node ns)) = true)
             exports) /\
  (forall rv ru gv gu bv bu av au extra rest,
      rgba (Node (Unit rv ru) :: Node (Unit gv gu) :: Node (Unit bv bu)
              :: Node (Unit av au) :: extra :: rest)
        = Return (Node (Color rv gv bv av))) /\
  (forall (c : node) (y z : value),
      instanceof c Unit_class = false ->
      hsl [Node c; y]
        = Throw (TypeMismatch [Unit_class] (Some (constructor c))) /\
      rgb [Node c; y]
        = Throw (TypeMismatch [Unit_class] (Some (constructor c))) /\
      hsla [Node c; y]
        = Throw (TypeMismatch [Unit_class] (Some (constructor c))) /\
      rgba [Node c; y; z]
        = Throw (TypeMismatch [Unit_class] (Some (constructor c))) /\
      hsla [Node c; y; z]
        = Throw (TypeMismatch [Unit_class] (Some (constructor c)))) /\
  (forall (x : value) (rest : list value),
      type (x :: rest) = type [x] /\
      hue (x :: rest) = hue [x] /\
      saturation (x :: rest) = saturation [x] /\
      lightness (x :: rest) = lightness [x] /\
      alpha (x :: rest) = alpha [x] /\
      red (x :: rest) = red [x] /\
      green (x :: rest) = green [x] /\
      blue (x :: rest) = blue [x]).
Proof.
  split; [|split; [|split]].
  - intros [|n1 [|n2 [|n3 [|n4 rest]]]] H; cbn [List.length] in H; try lia.
    clear H. unfold exports.
    repeat (apply Forall_cons; [cbn [snd map]|]); try apply Forall_nil.
    + unfold hsla. repeat node_step.
    + unfold hsl, hsla. repeat node_step.
    + unfold type. repeat node_step.
    + unfold hue. repeat node_step.
    + unfold saturation. repeat node_step.
    + unfold lightness. repeat node_step.
    + unfold alpha. repeat node_step.
    + unfold red. repeat node_step.
    + unfold green. repeat node_step.
    + unfold blue. repeat node_step.
    + unfold rgba. repeat node_step.
    + unfold rgb, rgba. repeat node_step.
  - reflexivity.
  - intros c y z H. unfold hsl, rgb, hsla, rgba.
    cbn -[utils.assertType]. rewrite (assertType_fail_node _ _ H).
    repeat split.
  - intros x rest. repeat split.
Qed.

(** ** The constructors [rgb] and [rgba] *)

(** C3: for a colour-like [c], [rgb(c)] is a [Color] with the channels of
    [c]'s RGB projection and alpha 1, whatever the alpha of [c]. *)
Theorem rgb_one_argument_opaque (c : node) :
  color_like c = true ->
  exists r g b a,
    rgba_projection c = Some (Color r g b a) /\
    rgb [Node c] = Return (Node (Color r g b 1)).
Proof.
  intros H. destruct (rgba_projection_color_like c H) as (r & g & b & a & Hp).
  exists r, g, b, a. split; [exact Hp|].
  unfold rgb. cbn -[utils.assertColor get.rgba].
  rewrite (assertColor_pass (Node c) H). cbn -[rgba_projection].
  rewrite Hp. reflexivity.
Qed.

(** C6: with four arguments, [rgba(r,g,b,a)] of four [Unit]s is the [Color]
    of their magnitudes; when one of the four is no [Unit] the call fails
    with a [TypeMismatch] that expected [Unit], and when the first is a
    colour the class found is that colour's. *)
Theorem rgba_four_arguments :
  (forall rv ru gv gu bv bu av au,
      rgba [Node (Unit rv ru); Node (Unit gv gu);
            Node (Unit bv bu); Node (Unit av au)]
        = Return (Node (Color rv gv bv av))) /\
  (forall r g b a,
      forallb (fun x => is_a x Unit_class) [r; g; b; a] = false ->
      exists actual,
        rgba [r; g; b; a] = Throw (TypeMismatch [Unit_class] actual)) /\
  (forall c g b a,
      color_like c = true ->
      rgba [Node c; g; b; a]
        = Throw (TypeMismatch [Unit_class] (Some (constructor c)))).
Proof.
  split; [reflexivity | split].
  - intros r g b a H. unfold rgba. cbn -[utils.assertType]. cbn in H.
    destruct (is_a r Unit_class) eqn:Hr;
      [rewrite (assertType_pass _ _ Hr)
      |destruct (assertType_fail _ _ Hr) as [x ->]; eexists; reflexivity].
    destruct (is_a g Unit_class) eqn:Hg;
      [rewrite (assertType_pass _ _ Hg)
      |destruct (assertType_fail _ _ Hg) as [x ->]; eexists; reflexivity].
    destruct (is_a b Unit_class) eqn:Hb;
      [rewrite (assertType_pass _ _ Hb)
      |destruct (assertType_fail _ _ Hb) as [x ->]; eexists; reflexivity].
    destruct (is_a a Unit_class) eqn:Ha; [discriminate H|].
    destruct (assertType_fail _ _ Ha) as [x ->]. eexists. reflexivity.
  - intros c g b a H.
    destruct (color_like_inv c H) as [(? & ? & ? & ? & ->)|(? & ? & ? & ? & ->)];
      reflexivity.
Qed.


(** ** The accessors *)

(** C5: on a [Color] (RGBColor) each of [hue], [saturation] and [lightness]
    fails with a [TypeMismatch] that expected [HSLA] and found [Color],
    although the [Color] has an HSL projection; each of the three returns
    exactly when its argument is an [HSLA]. *)
Theorem hue_saturation_lightness_need_HSLA :
  (forall r g b a,
      hue [Node (Color r g b a)]
        = Throw (TypeMismatch [HSLA_class] (Some Color_class)) /\
      saturation [Node (Color r g b a)]
        = Throw (TypeMismatch [HSLA_class] (Some Color_class)) /\
      lightness [Node (Color r g b a)]
        = Throw (TypeMismatch [HSLA_class] (Some Color_class)) /\
      exists h s l, hsl_projection (Color r g b a) = Some (HSLA h s l a)) /\
  (forall x,
      returns (hue [x]) = is_a x HSLA_class /\
      returns (saturation [x]) = is_a x HSLA_class /\
      returns (lightness [x]) = is_a x HSLA_class).
Proof.
  split.
  - intros r g b a. repeat split. cbn.
    destruct (toHSL r g b) as [[h s] l]. eauto.
  - intros [|[]]; repeat split.
Qed.

(** C8: on an [HSLA], [hue] is the rounded [h] in [deg], and [saturation]
    and [lightness] are the rounded [s] and [l] in [%], the rounding being
    to the nearest integer; on a colour-like node, [alpha], [red], [green]
    and [blue] are the components of its RGB projection, as they are and
    without a unit. *)
Theorem accessors_read_components :
  (forall h s l a,
      hue [Node (HSLA h s l a)]
        = Return (Node (Unit (Math_round h) (Some "deg"))) /\
      saturation [Node (HSLA h s l a)]
        = Return (Node (Unit (Math_round s) (Some "%"))) /\
      lightness [Node (HSLA h s l a)]
        = Return (Node (Unit (Math_round l) (Some "%")))) /\
  (forall x : number,
      exists z : Z,
        Math_round x = inject_Z z /\
        (x - (1 # 2) < inject_Z z)%Q /\ (inject_Z z <= x + (1 # 2))%Q) /\
  (forall c,
      color_like c = true ->
      exists r g b a,
        rgba_projection c = Some (Color r g b a) /\
        alpha [Node c] = Return (Node (Unit a None)) /\
        red [Node c] = Return (Node (Unit r None)) /\
        green [Node c] = Return (Node (Unit g None)) /\
        blue [Node c] = Return (Node (Unit b None))).
Proof.
  split; [|split].
  - intros h s l a. repeat split.
  - exact Math_round_nearest.
  - intros c H.
    destruct (rgba_projection_color_like c H) as (r & g & b & a & Hp).
    exists r, g, b, a. split; [exact Hp|].
    unfold alpha, red, green, blue. cbn -[utils.assertColor get.rgba].
    rewrite (assertColor_pass (Node c) H). cbn -[rgba_projection].
    rewrite Hp. repeat split.
Qed.


(** ** Arguments past the fourth *)

(** C10: with five arguments or more, [rgba] and [hsla] have the outcome
    they have on the first four. *)
Theorem rgba_hsla_ignore_extra_arguments (arguments : list value) :
  (5 <= List.length arguments)%nat ->
  rgba arguments = rgba (firstn 4 arguments) /\
  hsla arguments = hsla (firstn 4 arguments).
Proof.
  intros H.
  assert (Hlen : List.length (firstn 4 arguments) = 4%nat)
    by (rewrite length_firstn; lia).
  unfold rgba, hsla. rewrite Hlen.
  rewrite !param_firstn by lia.
  destruct (List.length arguments) as [|[|[|n]]]; [lia | lia | lia |].
  split; reflexivity.
Qed.

End Properties.

(** * Further properties of the functions *)

Lemma Math_round_integer (z : Z) : Math_round (inject_Z z) = inject_Z z.
Proof.
  unfold Math_round, Qfloor, Qplus, inject_Z. cbn.
  rewrite Z.div_add_l by discriminate.
  change (1 / 2)%Z with 0%Z. rewrite Z.add_0_r. reflexivity.
Qed.

Lemma clamp_in_range (z : Z) :
  (0 <= z <= 255)%Z -> clamp (inject_Z z) = inject_Z z.
Proof.
  intros [H0 H1]. unfold clamp. rewrite Math_round_integer.
  destruct (Qle_bool (inject_Z z) 0) eqn:E0.
  - apply Qle_bool_iff in E0. change 0%Q with (inject_Z 0) in E0.
    rewrite <- Zle_Qle in E0. replace z with 0%Z by lia. reflexivity.
  - destruct (Qle_bool 255 (inject_Z z)) eqn:E1; [|reflexivity].
    apply Qle_bool_iff in E1. change 255%Q with (inject_Z 255) in E1.
    rewrite <- Zle_Qle in E1. replace z with 255%Z by lia. reflexivity.
Qed.

Section Compositions.
Context {conv : Conversion}.

(** A function body is walked through assertion by assertion: the asserted
    parameter is split into [undefined] and the node classes, and each path
    ends in a [Throw] or in the [return]. *)
Ltac walk_leaf :=
  first
    [ reflexivity
    | discriminate
    | intros [= <-]; first [reflexivity | eauto 10]
    | intros _; reflexivity ].

Ltac walk_step :=
  cbn;
  first
    [ walk_leaf
    | match goal with
      | |- context [utils.assertType ?x _] => is_var x; destruct x as [|[]]
      | |- context [utils.assertColor ?x] => is_var x; destruct x as [|[]]
      | |- context [get.constructor ?x] => is_var x; destruct x
      | |- context [toRGB ?h ?s ?l] => destruct (toRGB h s l) as [[? ?] ?]
      | |- context [toHSL ?r ?g ?b] => destruct (toHSL r g b) as [[? ?] ?]
      end ].

Ltac walk :=
  repeat match goal with
         | |- context [param ?a ?i] =>
             is_var a; generalize (param a i); intro
         end;
  repeat walk_step.

(** ** What a call returns *)

Lemma hsla_returns_HSLA (arguments : list value) (v : value) :
  hsla arguments = Return v -> exists h s l a, v = Node (HSLA h s l a).
Proof.
  unfold hsla. destruct (List.length arguments) as [|[|n]]; walk.
Qed.

Lemma hsl_returns_HSLA (arguments : list value) (v : value) :
  hsl arguments = Return v -> exists h s l a, v = Node (HSLA h s l a).
Proof.
  unfold hsl. destruct (1 <? List.length arguments)%nat.
  - apply hsla_returns_HSLA.
  - walk.
Qed.

Lemma rgba_returns_Color (arguments : list value) (v : value) :
  rgba arguments = Return v -> exists r g b a, v = Node (Color r g b a).
Proof.
  unfold rgba. destruct (List.length arguments) as [|[|[|n]]]; walk.
Qed.

Lemma rgb_returns_Color (arguments : list value) (v : value) :
  rgb arguments = Return v -> exists r g b a, v = Node (Color r g b a).
Proof.
  unfold rgb. destruct (List.length arguments) as [|[|n]];
    try apply rgba_returns_Color. walk.
Qed.

(** X1.  Whatever the arguments, a call that returns returns a node of one class:
    [rgba] and [rgb] a [Color], [hsla] and [hsl] an [HSLA], the seven
    component accessors a [Unit], and [type] a [String]. *)
Theorem results_have_one_class (arguments : list value) (v : value) :
  (rgba arguments = Return v \/ rgb arguments = Return v ->
   is_a v Color_class = true) /\
  (hsla arguments = Return v \/ hsl arguments = Return v ->
   is_a v HSLA_class = true) /\
  (hue arguments = Return v \/ saturation arguments = Return v \/
   lightness arguments = Return v \/ alpha arguments = Return v \/
   red arguments = Return v \/ green arguments = Return v \/
   blue arguments = Return v ->
   is_a v Unit_class = true) /\
  (type arguments = Return v -> is_a v String_class = true).
Proof.
  split; [|split; [|split]].
  - intros [H|H];
      [apply rgba_returns_Color in H | apply rgb_returns_Color in H];
      destruct H as (r & g & b & a & ->); reflexivity.
  - intros [H|H];
      [apply hsla_returns_HSLA in H | apply hsl_returns_HSLA in H];
      destruct H as (h & s & l & a & ->); reflexivity.
  - unfold hue, saturation, lightness, alpha, red, green, blue.
    intros H. repeat destruct H as [H|H]; revert H; walk.
  - unfold type. walk.
Qed.

(** ** Opacity *)

(** X2.  [rgb] never returns a translucent colour: whatever the number and the
    kind of its arguments, a fourth one included, a returned colour has
    alpha 1. *)
Theorem rgb_always_opaque (arguments : list value) :
  returns (rgb arguments) = true -> result_alpha (rgb arguments) = Some 1%Q.
Proof.
  unfold rgb, rgba. destruct (List.length arguments) as [|[|n]]; walk.
Qed.

(** X3.  With two arguments or more, [hsl] returns alpha 1 when it returns: a
    fourth argument is not read. *)
Theorem hsl_components_opaque (arguments : list value) :
  (2 <= List.length arguments)%nat ->
  returns (hsl arguments) = true -> result_alpha (hsl arguments) = Some 1%Q.
Proof.
  intros H. unfold hsl, hsla.
  destruct (Nat.ltb_spec 1 (List.length arguments)) as [_|H']; [|lia].
  clear H. walk.
Qed.

(** ** How the overloads relate *)

(** X4.  [rgb(x)] is [rgba(x, 1)], for a colour and for anything else. *)
Theorem rgb_one_is_rgba_two (x : value) :
  rgb [x] = rgba [x; Node (Unit 1 None)].
Proof.
  unfold rgb, rgba. walk.
Qed.

(** X5.  [rgba(x)] is [rgba(x, alpha(x))]: the copy of a colour is the colour
    with its own alpha set again, and when [x] is no colour both fail
    alike. *)
Theorem rgba_one_is_rgba_two (x : value) :
  rgba [x] = (a <- alpha [x] ;; rgba [x; a]).
Proof.
  unfold rgba, alpha. walk.
Qed.

(** X6.  The copy [rgba(x)] is a fixed point of [rgba]: copying it again returns
    it unchanged. *)
Theorem rgba_copy_idempotent (x v : value) :
  rgba [x] = Return v -> rgba [v] = Return v.
Proof.
  unfold rgba at 1. destruct x as [|[]]; cbn; try discriminate.
  - intros [= <-]. reflexivity.
  - destruct (toRGB h s l) as [[r g] b]. intros [= <-]. reflexivity.
Qed.

(** X7.  [hsla] and [hsl] cannot be applied to their own result: whatever call
    returned [v], [hsla(v)] and [hsl(v)] fail, having asserted a [Color]
    and found an [HSLA]. *)
Theorem hsla_rejects_its_result (arguments : list value) (v : value) :
  hsla arguments = Return v \/ hsl arguments = Return v ->
  hsla [v] = Throw (TypeMismatch [Color_class] (Some HSLA_class)) /\
  hsl [v] = Throw (TypeMismatch [Color_class] (Some HSLA_class)).
Proof.
  intros [H|H];
    [apply hsla_returns_HSLA in H | apply hsl_returns_HSLA in H];
    destruct H as (h & s & l & a & ->); split; reflexivity.
Qed.

(** ** Constructors and accessors *)

(** X8.  Within the ranges of a colour the accessors read back what
    [rgba(r,g,b,a)] was built from: for integral channels between 0 and 255
    and an alpha between 0 and 1, [red], [green], [blue] and [alpha] of the
    result return the magnitudes of the four arguments, whatever unit the
    arguments had, as numbers without unit.  This holds with the [Color]
    constructor that stores its arguments and with the one that clamps. *)
Theorem channels_of_rgba (r g b : Z) (av : number) (ru gu bu au : option string)
    (new_Color : number -> number -> number -> number -> node) :
  (0 <= r <= 255)%Z -> (0 <= g <= 255)%Z -> (0 <= b <= 255)%Z ->
  (0 <= av)%Q -> (av <= 1)%Q ->
  new_Color = Color \/ new_Color = clamped_Color ->
  let c := rgba_new new_Color
             [Node (Unit (inject_Z r) ru); Node (Unit (inject_Z g) gu);
              Node (Unit (inject_Z b) bu); Node (Unit av au)] in
  (x <- c ;; red [x]) = Return (Node (Unit (inject_Z r) None)) /\
  (x <- c ;; green [x]) = Return (Node (Unit (inject_Z g) None)) /\
  (x <- c ;; blue [x]) = Return (Node (Unit (inject_Z b) None)) /\
  exists a1,
    (x <- c ;; alpha [x]) = Return (Node (Unit a1 None)) /\ (a1 == av)%Q.
Proof.
  intros Hr Hg Hb H0 H1 [-> | ->]; cbn -[clamp clampAlpha inject_Z].
  - repeat split. exists av. split; reflexivity.
  - rewrite !clamp_in_range by assumption. repeat split.
    exists (clampAlpha av). split; [reflexivity|].
    apply clampAlpha_in_range; assumption.
Qed.

(** X9.  [rgba(c, a)] changes the alpha of [c] and nothing else: [red],
    [green] and [blue] of the result are those of [c]; and for an [a]
    between 0 and 1, [alpha] of the result is the magnitude of [a], with the
    [Color] constructor that stores its arguments and with the one that
    clamps. *)
Theorem rgba_two_changes_alpha_only (c : node) (av : number) (au : option string) :
  color_like c = true ->
  ((v <- rgba [Node c; Node (Unit av au)] ;; red [v]) = red [Node c] /\
   (v <- rgba [Node c; Node (Unit av au)] ;; green [v]) = green [Node c] /\
   (v <- rgba [Node c; Node (Unit av au)] ;; blue [v]) = blue [Node c]) /\
  ((0 <= av)%Q -> (av <= 1)%Q ->
   forall new_Color : number -> number -> number -> number -> node,
     new_Color = Color \/ new_Color = clamped_Color ->
     exists a1,
       (v <- rgba_new new_Color [Node c; Node (Unit av au)] ;; alpha [v])
         = Return (Node (Unit a1 None)) /\
       (a1 == av)%Q).
Proof.
  intros H. split.
  - destruct (color_like_inv c H) as [(r & g & b & a & ->)|(h & s & l & a & ->)].
    + repeat split.
    + unfold rgba, red, green, blue. cbn.
      destruct (toRGB h s l) as [[r g] b]. repeat split.
  - intros H0 H1 new_Color [-> | ->].
    + exists av. split; [|reflexivity].
      destruct (color_like_inv c H) as [(r & g & b & a & ->)|(h & s & l & a & ->)];
        [reflexivity|].
      unfold rgba_new, alpha. cbn. destruct (toRGB h s l) as [[r g] b].
      reflexivity.
    + exists (clampAlpha av). split; [|apply clampAlpha_in_range; assumption].
      destruct (color_like_inv c H) as [(r & g & b & a & ->)|(h & s & l & a & ->)];
        [reflexivity|].
      unfold rgba_new, alpha. cbn -[clamp clampAlpha].
      destruct (toRGB h s l) as [[r g] b]. reflexivity.
Qed.

(** X10.  [hue], [saturation] and [lightness] read back what [hsla(h,s,l,a)] was
    built from, rounded and with the unit of the accessor, not of the
    argument; a component that is an integer is read back as it is. *)
Theorem components_of_hsla :
  (forall (hv sv lv av : number) (hu su lu au : option string),
      let c := hsla [Node (Unit hv hu); Node (Unit sv su);
                     Node (Unit lv lu); Node (Unit av au)] in
      (x <- c ;; hue [x])
        = Return (Node (Unit (Math_round hv) (Some "deg"))) /\
      (x <- c ;; saturation [x])
        = Return (Node (Unit (Math_round sv) (Some "%"))) /\
      (x <- c ;; lightness [x])
        = Return (Node (Unit (Math_round lv) (Some "%")))) /\
  (forall (h s l : Z) (av : number) (hu su lu au : option string),
      let c := hsla [Node (Unit (inject_Z h) hu); Node (Unit (inject_Z s) su);
                     Node (Unit (inject_Z l) lu); Node (Unit av au)] in
      (x <- c ;; hue [x]) = Return (Node (Unit (inject_Z h) (Some "deg"))) /\
      (x <- c ;; saturation [x])
        = Return (Node (Unit (inject_Z s) (Some "%"))) /\
      (x <- c ;; lightness [x])
        = Return (Node (Unit (inject_Z l) (Some "%")))).
Proof.
  split.
  - intros. repeat split.
  - intros. subst c. cbn -[Math_round inject_Z].
    rewrite !Math_round_integer. repeat split.
Qed.

(** X11.  The documented way to the hue of a [Color]: [hue(hsl(c))] returns the
    rounded hue of [c]'s HSL projection in [deg], where [hue(c)] fails. *)
Theorem hue_through_hsl (r g b a : number) :
  exists h s l,
    hsl_projection (Color r g b a) = Some (HSLA h s l a) /\
    (v <- hsl [Node (Color r g b a)] ;; hue [v])
      = Return (Node (Unit (Math_round h) (Some "deg"))) /\
    (v <- hsl [Node (Color r g b a)] ;; saturation [v])
      = Return (Node (Unit (Math_round s) (Some "%"))) /\
    (v <- hsl [Node (Color r g b a)] ;; lightness [v])
      = Return (Node (Unit (Math_round l) (Some "%"))) /\
    returns (hue [Node (Color r g b a)]) = false.
Proof.
  unfold hsl. cbn. destruct (toHSL r g b) as [[h s] l].
  exists h, s, l. repeat split.
Qed.

(** ** Which argument a failure names *)

(** X12.  In the [default] branch of [rgba] (taken with any number of
    arguments but one and two) and of [hsla] (taken with any number but
    one), when the leftmost of the four parameters that is no [Unit] is a
    node, the call fails at it: with a [TypeMismatch] that expected [Unit]
    and found that node's class, whatever stands to its right. *)
Theorem default_branch_fails_leftmost (arguments : list value) (n : node) :
  leftmost_non_Unit arguments = Some (Node n) ->
  (List.length arguments <> 1%nat -> List.length arguments <> 2%nat ->
   rgba arguments
     = Throw (TypeMismatch [Unit_class] (Some (constructor n)))) /\
  (List.length arguments <> 1%nat ->
   hsla arguments
     = Throw (TypeMismatch [Unit_class] (Some (constructor n)))).
Proof.
  unfold leftmost_non_Unit, rgba, hsla.
  generalize (param arguments 0), (param arguments 1),
    (param arguments 2), (param arguments 3).
  intros r g b a H.
  assert (Hbody :
    (utils.assertType r Unit_class ;;
     utils.assertType g Unit_class ;;
     utils.assertType b Unit_class ;;
     utils.assertType a Unit_class ;;
     Return tt) = Throw (TypeMismatch [Unit_class] (Some (constructor n)))).
  { revert H.
    destruct r as [|[]]; cbn; try (intros [= <-]; reflexivity).
    destruct g as [|[]]; cbn; try (intros [= <-]; reflexivity).
    destruct b as [|[]]; cbn; try (intros [= <-]; reflexivity).
    destruct a as [|[]]; cbn; intros [= <-]; reflexivity. }
  assert (Hk : forall k : result value,
    (utils.assertType r Unit_class ;;
     utils.assertType g Unit_class ;;
     utils.assertType b Unit_class ;;
     utils.assertType a Unit_class ;; k)
    = Throw (TypeMismatch [Unit_class] (Some (constructor n)))).
  { intros k. revert Hbody.
    destruct (utils.assertType r Unit_class); cbn; [|intros [= ->]; reflexivity].
    destruct (utils.assertType g Unit_class); cbn; [|intros [= ->]; reflexivity].
    destruct (utils.assertType b Unit_class); cbn; [|intros [= ->]; reflexivity].
    destruct (utils.assertType a Unit_class); cbn; [|intros [= ->]; reflexivity].
    discriminate. }
  split.
  - intros H1 H2.
    destruct (List.length arguments) as [|[|[|n0]]]; try congruence; apply Hk.
  - intros H1.
    destruct (List.length arguments) as [|[|n0]]; try congruence; apply Hk.
Qed.

(** X13.  [rgb] and [hsl] have no overload for a colour and a second argument:
    where [rgba(c, a)] sets the alpha of [c], [rgb(c, y)] and [hsl(c, y)]
    take the component branch and fail at the colour, a [Unit] having been
    expected. *)
Theorem rgb_hsl_two_arguments_fail (c : node) (y : value) :
  color_like c = true ->
  rgb [Node c; y]
    = Throw (TypeMismatch [Unit_class] (Some (constructor c))) /\
  hsl [Node c; y]
    = Throw (TypeMismatch [Unit_class] (Some (constructor c))).
Proof.
  intros H.
  destruct (color_like_inv c H) as [(? & ? & ? & ? & ->)|(? & ? & ? & ? & ->)];
    split; reflexivity.
Qed.

(** ** The argument counts a call returns at *)

(** X14.  A constructor returns only at the argument counts of its overloads or
    above the largest: [rgba] with one, two, or four and more arguments,
    [hsla] with one or four and more, [rgb] and [hsl] with one or three and
    more.  [rgba(r,g,b)], [hsla(h,s,l)] and every empty call fail. *)
Theorem constructors_return_at (arguments : list value) :
  let n := List.length arguments in
  (returns (rgba arguments) = true -> n = 1 \/ n = 2 \/ 4 <= n)%nat /\
  (returns (hsla arguments) = true -> n = 1 \/ 4 <= n)%nat /\
  (returns (rgb arguments) = true -> n = 1 \/ 3 <= n)%nat /\
  (returns (hsl arguments) = true -> n = 1 \/ 3 <= n)%nat.
Proof.
  destruct arguments as [|x [|y [|z [|w rest]]]]; cbn [List.length];
    repeat split; intros H; try lia; exfalso; revert H;
    unfold rgba, hsla, rgb, hsl; walk.
Qed.

(** ** Arguments that are not read *)

(** X15.  With three arguments or more, [rgb] and [hsl] have the outcome they have
    on the first three: a fourth argument, an alpha say, is not read. *)
Theorem rgb_hsl_ignore_extra_arguments (arguments : list value) :
  (3 <= List.length arguments)%nat ->
  rgb arguments = rgb (firstn 3 arguments) /\
  hsl arguments = hsl (firstn 3 arguments).
Proof.
  intros H.
  assert (Hlen : List.length (firstn 3 arguments) = 3%nat)
    by (rewrite length_firstn; lia).
  unfold rgb, hsl. rewrite Hlen. rewrite !param_firstn by lia.
  destruct (List.length arguments) as [|[|[|n]]]; [lia | lia | lia |].
  split; reflexivity.
Qed.

(** ** The ways a call fails *)

(** X16.  Every failure of the eleven functions other than [type] is a failed
    assertion: no property is read from [undefined] or from a node without
    it.  [type], which asserts nothing, fails exactly when its parameter is
    [undefined], and then with JavaScript's [TypeError]. *)
Theorem failures_are_mismatches (arguments : list value) :
  forallb (fun f : list value -> result value =>
             returns_or_mismatch (f arguments))
          [hsla; hsl; hue; saturation; lightness;
           alpha; red; green; blue; rgba; rgb] = true /\
  type arguments
    = match param arguments 0 with
      | undefined => Throw TypeError
      | Node n => Return (Node (String (toLowerCase (name (constructor n)))))
      end.
Proof.
  assert (Hhsla : forall l, returns_or_mismatch (hsla l) = true).
  { intros l. unfold hsla. destruct (List.length l) as [|[|n]]; walk. }
  assert (Hrgba : forall l, returns_or_mismatch (rgba l) = true).
  { intros l. unfold rgba. destruct (List.length l) as [|[|[|n]]]; walk. }
  split.
  - cbn [forallb]. rewrite Hhsla, Hrgba. cbn [andb].
    repeat (apply andb_true_iff; split); try reflexivity.
    + unfold hsl. destruct (1 <? List.length arguments)%nat;
        [apply Hhsla | walk].
    + unfold hue. walk.
    + unfold saturation. walk.
    + unfold lightness. walk.
    + unfold alpha. walk.
    + unfold red. walk.
    + unfold green. walk.
    + unfold blue. walk.
    + unfold rgb. destruct (List.length arguments) as [|[|n]];
        try apply Hrgba. walk.
  - unfold type. destruct (param arguments 0); reflexivity.
Qed.

End Compositions.

(** * Closed instances

    The calls below are evaluated with the [css] conversion. *)

(** C1 fails as stated: an [HSLA] is colour-like and has an HSL projection,
    and both [hsla] and [hsl] reject it with a [TypeMismatch]. *)
Lemma hsla_hsl_reject_HSLA :
  color_like (HSLA 0 100 50 1) = true /\
  @hsl_projection css (HSLA 0 100 50 1) = Some (HSLA 0 100 50 1) /\
  @hsla css [Node (HSLA 0 100 50 1)]
    = Throw (TypeMismatch [Color_class] (Some HSLA_class)) /\
  @hsl css [Node (HSLA 0 100 50 1)]
    = Throw (TypeMismatch [Color_class] (Some HSLA_class)).
Proof.
  repeat split.
Qed.

(** C4 fails as stated: on the colour-like [hsla(0, 100%, 50%, 0.4)] neither
    [hsl] nor [hsla] returns a colour, so none with alpha 0.4. *)
Lemma hsl_hsla_no_alpha_of_HSLA :
  color_like (HSLA 0 100 50 (2 # 5)) = true /\
  @hsl css [Node (HSLA 0 100 50 (2 # 5))]
    = Throw (TypeMismatch [Color_class] (Some HSLA_class)) /\
  @hsla css [Node (HSLA 0 100 50 (2 # 5))]
    = Throw (TypeMismatch [Color_class] (Some HSLA_class)).
Proof.
  repeat split.
Qed.

(** C2 fails as stated: [rgba(255, 0, 0, 1, 7)] and [hsl(#fc0, 0.5)] match
    no overload; the first returns a colour, the second fails with a
    [TypeMismatch] that found a [Color] where it expected a [Unit]. *)
Lemma unmatched_counts_return_or_mismatch :
  @rgba css [Node (Unit 255 None); Node (Unit 0 None); Node (Unit 0 None);
             Node (Unit 1 None); Node (Unit 7 None)]
    = Return (Node (Color 255 0 0 1)) /\
  @hsl css [Node (Color 255 204 0 1); Node (Unit (1 # 2) None)]
    = Throw (TypeMismatch [Unit_class] (Some Color_class)) /\
  throws_UnsupportedArity
    (@rgba css [Node (Unit 255 None); Node (Unit 0 None); Node (Unit 0 None);
                Node (Unit 1 None); Node (Unit 7 None)]) = false /\
  throws_UnsupportedArity
    (@hsl css [Node (Color 255 204 0 1); Node (Unit (1 # 2) None)]) = false.
Proof.
  repeat split.
Qed.

(** [rgba('x', 1, 2)] and the two-argument calls on ['x']; [hue(#fff, 1, 2,
    3)] among the calls with four nodes. *)
Lemma argument_count_selects_branch_witness :
  (@rgba css [Node (String "x"); Node (Unit 1 None); Node (Unit 2 None)]
     = Throw (TypeMismatch [Unit_class] (Some String_class)) /\
   @hsl css [Node (String "x"); Node (Unit 1 None)]
     = Throw (TypeMismatch [Unit_class] (Some String_class))) /\
  Forall (fun entry =>
            returns_or_found_mismatch
              (snd entry (map Node [Color 255 255 255 1; Unit 1 None;
                                    Unit 2 None; Unit 3 None])) = true)
         (@exports css).
Proof.
  split.
  - destruct (proj1 (proj2 (proj2 (@argument_count_selects_branch css)))
                (String "x") (Node (Unit 1 None)) (Node (Unit 2 None))
                eq_refl)
      as (Hhsl & _ & _ & Hrgba & _).
    split; [exact Hrgba | exact Hhsl].
  - apply (proj1 (@argument_count_selects_branch css)). cbn. lia.
Defined.

(** [rgb] of the translucent green [hsla(120, 100%, 50%, 0.4)]. *)
Lemma rgb_one_argument_opaque_witness :
  exists r g b a,
    @rgba_projection css (HSLA 120 100 50 (2 # 5)) = Some (Color r g b a) /\
    @rgb css [Node (HSLA 120 100 50 (2 # 5))] = Return (Node (Color r g b 1)).
Proof.
  apply (@rgb_one_argument_opaque css (HSLA 120 100 50 (2 # 5))).
  reflexivity.
Defined.

(** [rgba(#f00, 0, 0, 1)]: a colour where a channel is expected. *)
Lemma rgba_four_arguments_witness :
  (exists actual,
      @rgba css [Node (Color 255 0 0 1); Node (Unit 0 None);
                 Node (Unit 0 None); Node (Unit 1 None)]
        = Throw (TypeMismatch [Unit_class] actual)) /\
  @rgba css [Node (Color 255 0 0 1); Node (Unit 0 None);
             Node (Unit 0 None); Node (Unit 1 None)]
    = Throw (TypeMismatch [Unit_class] (Some Color_class)).
Proof.
  split.
  - apply (proj1 (proj2 (@rgba_four_arguments css))). reflexivity.
  - apply (proj2 (proj2 (@rgba_four_arguments css)) (Color 255 0 0 1)).
    reflexivity.
Defined.



(** The components of [hsla(0, 100%, 50%, 0.3)] through its RGB
    projection. *)
Lemma accessors_read_components_witness :
  exists r g b a,
    @rgba_projection css (HSLA 0 100 50 (3 # 10)) = Some (Color r g b a) /\
    @alpha css [Node (HSLA 0 100 50 (3 # 10))] = Return (Node (Unit a None)) /\
    @red css [Node (HSLA 0 100 50 (3 # 10))] = Return (Node (Unit r None)) /\
    @green css [Node (HSLA 0 100 50 (3 # 10))] = Return (Node (Unit g None)) /\
    @blue css [Node (HSLA 0 100 50 (3 # 10))] = Return (Node (Unit b None)).
Proof.
  apply (proj2 (proj2 (@accessors_read_components css))). reflexivity.
Defined.

(** [rgba(255, 0, 0, 0.5, #fff)] and [hsla(255, 0, 0, 0.5, #fff)]. *)
Lemma rgba_hsla_ignore_extra_arguments_witness :
  @rgba css [Node (Unit 255 None); Node (Unit 0 None); Node (Unit 0 None);
             Node (Unit (1 # 2) None); Node (Color 255 255 255 1)]
    = @rgba css [Node (Unit 255 None); Node (Unit 0 None); Node (Unit 0 None);
                 Node (Unit (1 # 2) None)] /\
  @hsla css [Node (Unit 255 None); Node (Unit 0 None); Node (Unit 0 None);
             Node (Unit (1 # 2) None); Node (Color 255 255 255 1)]
    = @hsla css [Node (Unit 255 None); Node (Unit 0 None); Node (Unit 0 None);
                 Node (Unit (1 # 2) None)].
Proof.
  apply (@rgba_hsla_ignore_extra_arguments css
           [Node (Unit 255 None); Node (Unit 0 None); Node (Unit 0 None);
            Node (Unit (1 # 2) None); Node (Color 255 255 255 1)]).
  cbn. lia.
Defined.

(** The examples of the doc comments of [bifs.js]. *)

Example hue_of_hsl :
  (c <- @hsl css [Node (Unit 50 (Some "deg")); Node (Unit 100 (Some "%"));
                  Node (Unit 80 (Some "%"))] ;;
   hue [c]) = Return (Node (Unit 50 (Some "deg"))).
Proof. reflexivity. Qed.

Example saturation_lightness_of_hsl :
  (c <- @hsl css [Node (Unit 50 (Some "deg")); Node (Unit 100 (Some "%"));
                  Node (Unit 80 (Some "%"))] ;;
   saturation [c]) = Return (Node (Unit 100 (Some "%"))) /\
  (c <- @hsl css [Node (Unit 50 (Some "deg")); Node (Unit 100 (Some "%"));
                  Node (Unit 80 (Some "%"))] ;;
   lightness [c]) = Return (Node (Unit 80 (Some "%"))).
Proof. split; reflexivity. Qed.

Example alpha_of_rgba :
  (c <- @rgba css [Node (Unit 0 None); Node (Unit 0 None); Node (Unit 0 None);
                   Node (Unit (3 # 10) None)] ;;
   @alpha css [c]) = Return (Node (Unit (3 # 10) None)).
Proof. reflexivity. Qed.

Example red_of_c00 :
  @red css [Node (Color 204 0 0 1)] = Return (Node (Unit 204 None)).
Proof. reflexivity. Qed.

Example hsla_of_ffcc00 :
  @hsla css [Node (Color 255 204 0 1)] = Return (Node (HSLA 48 100 50 1)).
Proof. reflexivity. Qed.

Example rgba_of_hsla_red :
  @rgba css [Node (HSLA 0 100 50 (2 # 5))]
    = Return (Node (Color 255 0 0 (2 # 5))).
Proof. reflexivity. Qed.

Example type_without_argument :
  type [] = Throw TypeError.
Proof. reflexivity. Qed.

(** ** Closed instances of the further properties *)

(** [rgba(hsla(0, 100%, 50%, 1))] returned pure red, a [Color]. *)
Lemma results_have_one_class_witness :
  @rgba css [Node (HSLA 0 100 50 1)] = Return (Node (Color 255 0 0 1)) /\
  is_a (Node (Color 255 0 0 1)) Color_class = true.
Proof.
  split; [reflexivity|].
  apply (proj1 (@results_have_one_class css
                  [Node (HSLA 0 100 50 1)] (Node (Color 255 0 0 1)))).
  left. reflexivity.
Defined.

(** [rgb(255, 0, 0, 0.5)]: the fourth argument does not make the colour
    translucent. *)
Lemma rgb_always_opaque_witness :
  result_alpha (@rgb css [Node (Unit 255 None); Node (Unit 0 None);
                          Node (Unit 0 None); Node (Unit (1 # 2) None)])
    = Some 1%Q.
Proof.
  apply (@rgb_always_opaque css). reflexivity.
Defined.

(** [hsl(50deg, 100%, 80%, 0.5)]. *)
Lemma hsl_components_opaque_witness :
  result_alpha (@hsl css [Node (Unit 50 (Some "deg")); Node (Unit 100 (Some "%"));
                          Node (Unit 80 (Some "%")); Node (Unit (1 # 2) None)])
    = Some 1%Q.
Proof.
  apply (@hsl_components_opaque css); [cbn; lia | reflexivity].
Defined.

(** The copy of [hsla(0, 100%, 50%, 0.4)] is [rgba(255, 0, 0, 0.4)], and the
    copy of that is itself. *)
Lemma rgba_copy_idempotent_witness :
  @rgba css [Node (Color 255 0 0 (2 # 5))]
    = Return (Node (Color 255 0 0 (2 # 5))).
Proof.
  apply (@rgba_copy_idempotent css (Node (HSLA 0 100 50 (2 # 5)))).
  reflexivity.
Defined.

(** [hsl(hsl(#ffcc00))]. *)
Lemma hsla_rejects_its_result_witness :
  @hsla css [Node (HSLA 48 100 50 1)]
    = Throw (TypeMismatch [Color_class] (Some HSLA_class)) /\
  @hsl css [Node (HSLA 48 100 50 1)]
    = Throw (TypeMismatch [Color_class] (Some HSLA_class)).
Proof.
  apply (@hsla_rejects_its_result css [Node (Color 255 204 0 1)]).
  right. reflexivity.
Defined.

(** [rgba(255, 204, 0, 0.5)] read back, with the clamping constructor. *)
Lemma channels_of_rgba_witness :
  (x <- @rgba_new css clamped_Color
          [Node (Unit (inject_Z 255) None); Node (Unit (inject_Z 204) None);
           Node (Unit (inject_Z 0) None); Node (Unit (1 # 2) None)] ;;
   @red css [x]) = Return (Node (Unit (inject_Z 255) None)) /\
  (x <- @rgba_new css clamped_Color
          [Node (Unit (inject_Z 255) None); Node (Unit (inject_Z 204) None);
           Node (Unit (inject_Z 0) None); Node (Unit (1 # 2) None)] ;;
   @green css [x]) = Return (Node (Unit (inject_Z 204) None)) /\
  (x <- @rgba_new css clamped_Color
          [Node (Unit (inject_Z 255) None); Node (Unit (inject_Z 204) None);
           Node (Unit (inject_Z 0) None); Node (Unit (1 # 2) None)] ;;
   @blue css [x]) = Return (Node (Unit (inject_Z 0) None)) /\
  exists a1,
    (x <- @rgba_new css clamped_Color
            [Node (Unit (inject_Z 255) None); Node (Unit (inject_Z 204) None);
             Node (Unit (inject_Z 0) None); Node (Unit (1 # 2) None)] ;;
     @alpha css [x]) = Return (Node (Unit a1 None)) /\
    (a1 == 1 # 2)%Q.
Proof.
  apply (@channels_of_rgba css 255 204 0 (1 # 2) None None None None
           clamped_Color);
    try (split; discriminate); try discriminate.
  right. reflexivity.
Defined.

(** [rgba(hsla(120, 100%, 50%, 1), 0.5)], with the clamping constructor for
    the alpha. *)
Lemma rgba_two_changes_alpha_only_witness :
  ((v <- @rgba css [Node (HSLA 120 100 50 1); Node (Unit (1 # 2) None)] ;;
    @red css [v]) = @red css [Node (HSLA 120 100 50 1)] /\
   (v <- @rgba css [Node (HSLA 120 100 50 1); Node (Unit (1 # 2) None)] ;;
    @green css [v]) = @green css [Node (HSLA 120 100 50 1)] /\
   (v <- @rgba css [Node (HSLA 120 100 50 1); Node (Unit (1 # 2) None)] ;;
    @blue css [v]) = @blue css [Node (HSLA 120 100 50 1)]) /\
  exists a1,
    (v <- @rgba_new css clamped_Color
            [Node (HSLA 120 100 50 1); Node (Unit (1 # 2) None)] ;;
     @alpha css [v]) = Return (Node (Unit a1 None)) /\
    (a1 == 1 # 2)%Q.
Proof.
  destruct (@rgba_two_changes_alpha_only css (HSLA 120 100 50 1) (1 # 2) None
              eq_refl) as [Hrgb Halpha].
  split; [exact Hrgb|].
  apply Halpha; [discriminate | discriminate | right; reflexivity].
Defined.

(** [rgba(255, #fff, 'x', 1)] and [hsla(255, #fff, 'x', 1)] fail at the
    second argument. *)
Lemma default_branch_fails_leftmost_witness :
  @rgba css [Node (Unit 255 None); Node (Color 255 255 255 1);
             Node (String "x"); Node (Unit 1 None)]
    = Throw (TypeMismatch [Unit_class] (Some Color_class)) /\
  @hsla css [Node (Unit 255 None); Node (Color 255 255 255 1);
             Node (String "x"); Node (Unit 1 None)]
    = Throw (TypeMismatch [Unit_class] (Some Color_class)).
Proof.
  destruct (@default_branch_fails_leftmost css
              [Node (Unit 255 None); Node (Color 255 255 255 1);
               Node (String "x"); Node (Unit 1 None)]
              (Color 255 255 255 1) eq_refl) as [Hrgba Hhsla].
  split; [apply Hrgba | apply Hhsla]; cbn; discriminate.
Defined.

(** [rgb(#fc0, 0.5)] and [hsl(#fc0, 0.5)]. *)
Lemma rgb_hsl_two_arguments_fail_witness :
  @rgb css [Node (Color 255 204 0 1); Node (Unit (1 # 2) None)]
    = Throw (TypeMismatch [Unit_class] (Some Color_class)) /\
  @hsl css [Node (Color 255 204 0 1); Node (Unit (1 # 2) None)]
    = Throw (TypeMismatch [Unit_class] (Some Color_class)).
Proof.
  apply (@rgb_hsl_two_arguments_fail css (Color 255 204 0 1)). reflexivity.
Defined.

(** [rgba(255, 204, 0, 1)] returns, with four arguments. *)
Lemma constructors_return_at_witness :
  returns (@rgba css [Node (Unit 255 None); Node (Unit 204 None);
                      Node (Unit 0 None); Node (Unit 1 None)]) = true /\
  (List.length [Node (Unit 255 None); Node (Unit 204 None);
                Node (Unit 0 None); Node (Unit 1 None)] = 1%nat \/
   List.length [Node (Unit 255 None); Node (Unit 204 None);
                Node (Unit 0 None); Node (Unit 1 None)] = 2%nat \/
   le 4%nat (List.length [Node (Unit 255 None); Node (Unit 204 None);
                          Node (Unit 0 None); Node (Unit 1 None)])).
Proof.
  split; [reflexivity|].
  apply (proj1 (@constructors_return_at css
                  [Node (Unit 255 None); Node (Unit 204 None);
                   Node (Unit 0 None); Node (Unit 1 None)])).
  reflexivity.
Defined.

(** [rgb(255, 0, 0, 0.5)] and [hsl(255, 0, 0, 0.5)]. *)
Lemma rgb_hsl_ignore_extra_arguments_witness :
  @rgb css [Node (Unit 255 None); Node (Unit 0 None); Node (Unit 0 None);
            Node (Unit (1 # 2) None)]
    = @rgb css [Node (Unit 255 None); Node (Unit 0 None); Node (Unit 0 None)] /\
  @hsl css [Node (Unit 255 None); Node (Unit 0 None); Node (Unit 0 None);
            Node (Unit (1 # 2) None)]
    = @hsl css [Node (Unit 255 None); Node (Unit 0 None); Node (Unit 0 None)].
Proof.
  apply (@rgb_hsl_ignore_extra_arguments css
           [Node (Unit 255 None); Node (Unit 0 None); Node (Unit 0 None);
            Node (Unit (1 # 2) None)]).
  cbn. lia.
Defined.
